(** * jwtkms: the RSA-PSS signing method backed by a remote key service

    A shallow embedding of [kms_pss_signingmethod.go]: the type dispatch of
    [PSSSigningMethod.Verify] and the cache-or-fetch key resolution of
    [localVerifyPSS].  Go's [error] results are [option error] ([None] is
    [nil]); the process-wide public-key cache, the state of the remote
    service and the log of calls are threaded through a state monad. *)

From Stdlib Require Import ZArith NArith Ascii String Strings.Byte.
From stdpp Require Import gmap strings list fin_maps.

Local Open Scope string_scope.
Local Open Scope list_scope.

(** ** Go values *)

Definition bytes := list byte.

(** [[]byte(s)] *)
Definition bytes_of_string (s : string) : bytes := list_byte_of_string s.

(** Go [error] values.  [fmt_Errorf_w p c] is [fmt.Errorf(p + "%w", c)];
    [Foreign] is an error value made by a package outside this repository. *)
Inductive error : Type :=
  | ErrInvalidKeyType
  | ErrHashUnavailable
  | errors_New (text : string)
  | fmt_Errorf_w (prefix : string) (cause : error)
  | Foreign (pkg text : string).

(** [err.Error()] *)
Fixpoint Error (e : error) : string :=
  match e with
  | ErrInvalidKeyType => "key is of invalid type"
  | ErrHashUnavailable => "the requested hash function is unavailable"
  | errors_New text => text
  | fmt_Errorf_w prefix cause => prefix +:+ Error cause
  | Foreign _ text => text
  end.

(** [errors.Unwrap(err)] *)
Definition Unwrap (e : error) : option error :=
  match e with
  | fmt_Errorf_w _ cause => Some cause
  | _ => None
  end.

(** [crypto.Hash] is an unsigned integer naming a hash function. *)
Definition Hash := N.

(** [rsa.PublicKey] *)
Record rsa_PublicKey := { rsa_N : Z; rsa_E : Z }.

(** [rsa.PSSOptions]; [&rsa.PSSOptions{}] is the zero value. *)
Record PSSOptions := { SaltLength : Z; PSSHash : Hash }.

Definition PSSSaltLengthAuto : Z := 0.
Definition PSSOptions_zero : PSSOptions := {| SaltLength := 0; PSSHash := 0%N |}.

(** The dynamic types [x509.ParsePKIXPublicKey] can return behind the
    [crypto.PublicKey] interface. *)
Inductive PublicKey : Type :=
  | RSAPublicKey (k : rsa_PublicKey)
  | DSAPublicKey (material : bytes)
  | ECDSAPublicKey (material : bytes)
  | Ed25519PublicKey (material : bytes)
  | ECDHPublicKey (material : bytes).

(** The type assertion of [cachedKey] to a pointer to [rsa.PublicKey]. *)
Definition as_rsa_PublicKey (k : PublicKey) : option rsa_PublicKey :=
  match k with
  | RSAPublicKey pk => Some pk
  | _ => None
  end.

Section KeyArguments.
(** [Net] is the hidden state of the remote service and of the network,
    [Ctx] is [context.Context]. *)
Variables Net Ctx : Type.

(** The methods of the remote client that this package calls. *)
Record KMSClient := {
  GetPublicKey : Ctx -> string -> Net -> (bytes + error) * Net;
  RemoteVerify : Ctx -> string -> string -> bytes -> bytes -> Net -> option error * Net
}.

(** The fields of [Config] read by the verifier. *)
Record Config := {
  kmsKeyID : string;
  verifyWithKMS : bool;
  kmsClient : KMSClient;
  ctx : Ctx
}.

(** Values of other dynamic types that a caller can pass as the key. *)
Inductive OtherValue : Type :=
  | VString (s : string)
  | VBytes (b : bytes)
  | VConfig (c : Config)
  | VRSAPublicKeyValue (k : rsa_PublicKey)
  | VRSAPrivateKey (k : rsa_PublicKey) (d : Z)
  | VNamed (type_name : string).

(** The [interface{}] key argument: the nil interface, a pointer to [Config] or
    to [rsa.PublicKey] (either pointer may be nil), or anything else. *)
Inductive KeyArg : Type :=
  | KeyNil
  | KeyConfig (p : option Config)
  | KeyRSAPublic (p : option rsa_PublicKey)
  | KeyOther (v : OtherValue).

(** The type assertion of [keyConfig] to a pointer to [Config]: [None]
    when [ok] is false. *)
Definition as_Config (k : KeyArg) : option (option Config) :=
  match k with
  | KeyConfig p => Some p
  | _ => None
  end.

(** The type assertion [isBuiltInRsa] of [keyConfig] to a pointer to
    [rsa.PublicKey]. *)
Definition as_rsa_pointer (k : KeyArg) : option (option rsa_PublicKey) :=
  match k with
  | KeyRSAPublic p => Some p
  | _ => None
  end.
End KeyArguments.

Arguments GetPublicKey {Net Ctx}.
Arguments RemoteVerify {Net Ctx}.
Arguments kmsKeyID {Net Ctx}.
Arguments verifyWithKMS {Net Ctx}.
Arguments kmsClient {Net Ctx}.
Arguments ctx {Net Ctx}.
Arguments KeyNil {Net Ctx}.
Arguments KeyConfig {Net Ctx}.
Arguments KeyRSAPublic {Net Ctx}.
Arguments KeyOther {Net Ctx}.
Arguments VString {Net Ctx}.
Arguments VBytes {Net Ctx}.
Arguments VConfig {Net Ctx}.
Arguments VRSAPublicKeyValue {Net Ctx}.
Arguments VRSAPrivateKey {Net Ctx}.
Arguments VNamed {Net Ctx}.
Arguments as_Config {Net Ctx}.
Arguments as_rsa_pointer {Net Ctx}.

(** The outcome of a call: a returned value or a run-time panic. *)
Inductive Result (A : Type) : Type :=
  | Ret (a : A)
  | Panic (reason : string).
Arguments Ret {A}.
Arguments Panic {A}.

(** ** Collaborators

    The packages the verifier calls into: [crypto] (hash functions),
    [jwt] (segment decoding and the standard PSS signing method), [x509]
    and [crypto/rsa].  The standard signing method is handed the key
    argument as it came, a nil pointer included, so its call can end in a
    panic as well as in a returned error. *)
Class Collaborators := {
  Net : Type;
  Ctx : Type;
  hasher : Type;
  SigningMethodRSAPSS : Type;
  Hash_Available : Hash -> bool;
  Hash_New : Hash -> hasher;
  hasher_Write : hasher -> bytes -> hasher;
  hasher_Sum : hasher -> bytes -> bytes;
  jwt_DecodeSegment : string -> bytes + error;
  x509_ParsePKIXPublicKey : bytes -> PublicKey + error;
  rsa_VerifyPSS : rsa_PublicKey -> Hash -> bytes -> bytes -> PSSOptions -> option error;
  SigningMethodRSAPSS_Verify :
    SigningMethodRSAPSS -> string -> string -> KeyArg Net Ctx -> Result (option error);
  (** the operation label of the remote verify helper *)
  remoteVerifyLabel : string
}.

(** ** Calls observed on the shared resources *)
Inductive Event : Type :=
  | CacheGet (keyID : string)
  | CacheAdd (keyID : string) (key : PublicKey)
  | KMSGetPublicKey (keyID : string)
  | KMSVerify (keyID algo : string) (digest sig : bytes).

Definition is_KMSGetPublicKey (e : Event) : bool :=
  match e with KMSGetPublicKey _ => true | _ => false end.

Definition count_GetPublicKey (l : list Event) : nat :=
  length (List.filter is_KMSGetPublicKey l).

Section Engine.
Context `{Collaborators}.

(** ** The world: the package-level cache, the remote side, the call log *)
Record World := {
  pubkeyCache : gmap string PublicKey;
  net : Net;
  calls : list Event
}.

Definition log (e : Event) (w : World) : World :=
  {| pubkeyCache := pubkeyCache w; net := net w; calls := calls w ++ [e] |}.

(** ** A state monad with panics *)
Definition M (A : Type) : Type := World -> Result A * World.

Definition ret {A} (a : A) : M A := fun w => (Ret a, w).

Definition bind {A B} (c : M A) (k : A -> M B) : M B :=
  fun w =>
    match c w with
    | (Ret a, w') => k a w'
    | (Panic r, w') => (Panic r, w')
    end.

Notation "'let!' x ':=' c 'in' k" := (bind c (fun x => k))
  (at level 10, x name, c at level 100, k at level 200).

(** The outcome of a call that does not touch the world. *)
Definition outcome {A} (r : Result A) : M A := fun w => (r, w).

(** Reading a field through a pointer. *)
Definition deref {A} (p : option A) : M A :=
  match p with
  | Some a => ret a
  | None => fun w => (Panic "invalid memory address or nil pointer dereference", w)
  end.

(** Modelled from the spec: the public-key cache [pubkeyCache], whose code
    is not part of the verifier's file.  [Get] returns the stored key or
    absent and never fetches; [Add] is an overwriting insert; no entry is
    evicted. *)
Definition pubkeyCache_Get (keyID : string) : M (option PublicKey) :=
  fun w => (Ret (pubkeyCache w !! keyID), log (CacheGet keyID) w).

(** Modelled from the spec: [pubkeyCache.Add], the overwriting insert of
    the same cache. *)
Definition pubkeyCache_Add (keyID : string) (key : PublicKey) : M unit :=
  fun w =>
    (Ret tt,
     log (CacheAdd keyID key)
       {| pubkeyCache := <[keyID := key]> (pubkeyCache w);
          net := net w; calls := calls w |}).

(** [cfg.kmsClient.GetPublicKey(cfg.ctx, &kms.GetPublicKeyInput{KeyId: ...})],
    giving the [PublicKey] field of the output or the error. *)
Definition kmsClient_GetPublicKey (cfg : Config Net Ctx) (keyID : string)
  : M (bytes + error) :=
  fun w =>
    let '(r, n) := GetPublicKey (kmsClient cfg) (ctx cfg) keyID (net w) in
    (Ret r,
     log (KMSGetPublicKey keyID)
       {| pubkeyCache := pubkeyCache w; net := n; calls := calls w |}).

Definition kmsClient_Verify (cfg : Config Net Ctx) (keyID algo : string)
    (digest sig : bytes) : M (option error) :=
  fun w =>
    let '(r, n) := RemoteVerify (kmsClient cfg) (ctx cfg) keyID algo digest sig (net w) in
    (Ret r,
     log (KMSVerify keyID algo digest sig)
       {| pubkeyCache := pubkeyCache w; net := n; calls := calls w |}).

(** Modelled from the spec: the shared remote verify helper
    [verifyRSAOrPSS], whose code is not part of the verifier's file.  It
    delegates to the gateway's remote [Verify(keyID, algorithm, hash,
    signature)] and surfaces its error wrapped with an operation label. *)
Definition verifyRSAOrPSS (cfg : Config Net Ctx) (algo : string)
    (hashedSigningString sig : bytes) : M (option error) :=
  let! r := kmsClient_Verify cfg (kmsKeyID cfg) algo hashedSigningString sig in
  match r with
  | Some err => ret (Some (fmt_Errorf_w remoteVerifyLabel err))
  | None => ret None
  end.

(** ** The signing method *)

(** The fields of the embedded [RSASigningMethod] that [Verify] reads. *)
Record RSASigningMethod := { algo : string; hash : Hash }.

Record PSSSigningMethod := {
  rsaSigningMethod : RSASigningMethod;
  fallbackSigningMethod : SigningMethodRSAPSS
}.

(** [localVerifyPSS], lines 53-83.  The first block resolves the key and
    returns early with the wrapped error on a failed fetch or parse. *)
Definition localVerifyPSS (cfg : Config Net Ctx) (hash : Hash)
    (hashedSigningString sig : bytes) : M (option error) :=
  let! cachedKey := pubkeyCache_Get (kmsKeyID cfg) in
  let! resolved :=
    match cachedKey with
    | Some key => ret (inl key)
    | None =>
        let! getPubKeyOutput := kmsClient_GetPublicKey cfg (kmsKeyID cfg) in
        match getPubKeyOutput with
        | inr err => ret (inr (fmt_Errorf_w "getting public key: " err))
        | inl publicKey =>
            match x509_ParsePKIXPublicKey publicKey with
            | inr err => ret (inr (fmt_Errorf_w "parsing public key: " err))
            | inl key =>
                let! _ := pubkeyCache_Add (kmsKeyID cfg) key in
                ret (inl key)
            end
        end
    end in
  match resolved with
  | inr err => ret (Some err)
  | inl cachedKey =>
      match as_rsa_PublicKey cachedKey with
      | None => ret (Some (errors_New "invalid key type for key"))
      | Some rsaPublicKey =>
          match rsa_VerifyPSS rsaPublicKey hash hashedSigningString sig
                  PSSOptions_zero with
          | Some err => ret (Some (fmt_Errorf_w "verifying signature locally: " err))
          | None => ret None
          end
      end
  end.

(** [PSSSigningMethod.Verify], lines 22-51. *)
Definition Verify (m : PSSSigningMethod) (signingString signature : string)
    (keyConfig : KeyArg Net Ctx) : M (option error) :=
  match as_Config keyConfig with
  | None =>
      match as_rsa_pointer keyConfig with
      | Some _ =>
          outcome (SigningMethodRSAPSS_Verify (fallbackSigningMethod m)
                     signingString signature keyConfig)
      | None => ret (Some ErrInvalidKeyType)
      end
  | Some cfg =>
      match jwt_DecodeSegment signature with
      | inr err => ret (Some (fmt_Errorf_w "decoding signature: " err))
      | inl sig =>
          if negb (Hash_Available (hash (rsaSigningMethod m)))
          then ret (Some ErrHashUnavailable)
          else
            let hasher := Hash_New (hash (rsaSigningMethod m)) in
            let hasher := hasher_Write hasher (bytes_of_string signingString) in
            let hashedSigningString := hasher_Sum hasher [] in
            let! cfg := deref cfg in
            if verifyWithKMS cfg
            then verifyRSAOrPSS cfg (algo (rsaSigningMethod m)) hashedSigningString sig
            else localVerifyPSS cfg (hash (rsaSigningMethod m)) hashedSigningString sig
      end
  end.

(** The digest [Verify] computes for a signing string. *)
Definition digest_of (m : PSSSigningMethod) (signingString : string) : bytes :=
  hasher_Sum
    (hasher_Write (Hash_New (hash (rsaSigningMethod m)))
       (bytes_of_string signingString)) [].

(** ** Sequences of calls on the shared world *)
Record Call := {
  call_method : PSSSigningMethod;
  call_signingString : string;
  call_signature : string;
  call_key : KeyArg Net Ctx
}.

Definition run_call (c : Call) (w : World) : World :=
  snd (Verify (call_method c) (call_signingString c) (call_signature c)
         (call_key c) w).

Definition run_calls (cs : list Call) (w : World) : World :=
  fold_left (fun w c => run_call c w) cs w.

End Engine.


Arguments World {_}.
Arguments M {_} A.

(** ** Conditions on a call, read off the branches of the code *)
Section Conditions.
Context `{Collaborators}.

(** A [Verify] call with a configuration that passes the decode and hash
    checks and takes the local branch. *)
Definition local_call (m : PSSSigningMethod) (signature : string)
    (cfg : Config Net Ctx) (sig : bytes) : Prop :=
  verifyWithKMS cfg = false /\
  jwt_DecodeSegment signature = inl sig /\
  Hash_Available (hash (rsaSigningMethod m)) = true.

(** The cache holds no entry for the configured key. *)
Definition cache_miss (cfg : Config Net Ctx) (w : World) : Prop :=
  pubkeyCache w !! kmsKeyID cfg = None.

(** What the gateway answers to [GetPublicKey] in world [w]. *)
Definition fetch (cfg : Config Net Ctx) (w : World) : (bytes + error) * Net :=
  GetPublicKey (kmsClient cfg) (ctx cfg) (kmsKeyID cfg) (net w).

(** The key is resolved to [key]: found in the cache, or fetched and
    parsed after a miss. *)
Definition key_resolves (cfg : Config Net Ctx) (w : World) (key : PublicKey) : Prop :=
  pubkeyCache w !! kmsKeyID cfg = Some key \/
  (cache_miss cfg w /\
   exists der, fst (fetch cfg w) = inl der /\ x509_ParsePKIXPublicKey der = inl key).

(** The calls a run added to the log. *)
Definition added_calls (w w' : World) (l : list Event) : Prop :=
  calls w' = calls w ++ l.
End Conditions.

(** ** A small executable instance of the collaborators

    Used to run the model on concrete inputs: a raw base64url decoder, a
    toy digest and a toy signature check stand for the library packages,
    and four gateway clients answer [GetPublicKey] in the four ways the
    code distinguishes. *)
Module Sample.

Definition byte_of_N (n : N) : byte :=
  match Byte.of_N (n mod 256) with
  | Some b => b
  | None => x00
  end.

(** The value of a character in the URL-safe base64 alphabet. *)
Definition sextet (c : ascii) : option N :=
  let n := N_of_ascii c in
  if (65 <=? n)%N && (n <=? 90)%N then Some (n - 65)%N
  else if (97 <=? n)%N && (n <=? 122)%N then Some (n - 71)%N
  else if (48 <=? n)%N && (n <=? 57)%N then Some (n + 4)%N
  else if (n =? 45)%N then Some 62%N
  else if (n =? 95)%N then Some 63%N
  else None.

Fixpoint sextets (s : string) : option (list N) :=
  match s with
  | EmptyString => Some []
  | String c rest =>
      match sextet c, sextets rest with
      | Some n, Some l => Some (n :: l)
      | _, _ => None
      end
  end.

Fixpoint pack (l : list N) : option bytes :=
  match l with
  | [] => Some []
  | [_] => None
  | [a; b] => Some [byte_of_N (a * 4 + b / 16)]
  | [a; b; c] => Some [byte_of_N (a * 4 + b / 16); byte_of_N (b * 16 + c / 4)]
  | a :: b :: c :: d :: rest =>
      match pack rest with
      | Some tl =>
          Some (byte_of_N (a * 4 + b / 16) :: byte_of_N (b * 16 + c / 4)
                  :: byte_of_N (c * 64 + d) :: tl)
      | None => None
      end
  end%N.

Definition DecodeSegment (seg : string) : bytes + error :=
  match sextets seg with
  | Some l =>
      match pack l with
      | Some b => inl b
      | None => inr (Foreign "encoding/base64" "illegal base64 data")
      end
  | None => inr (Foreign "encoding/base64" "illegal base64 data")
  end.

Fixpoint bytes_eqb (a b : bytes) : bool :=
  match a, b with
  | [], [] => true
  | x :: a', y :: b' => Byte.eqb x y && bytes_eqb a' b'
  | _, _ => false
  end.

(** SHA-256, SHA-384 and SHA-512 are linked in. *)
Definition Available (h : Hash) : bool := (5 <=? h)%N && (h <=? 7)%N.

(** The toy digest is the input reversed. *)
Definition Sum (written prefix : bytes) : bytes := prefix ++ rev written.

(** Key material: a tag byte, then the key. *)
Definition ParsePKIXPublicKey (der : bytes) : PublicKey + error :=
  match der with
  | x01 :: n :: e :: [] =>
      inl (RSAPublicKey {| rsa_N := Z.of_N (Byte.to_N n); rsa_E := Z.of_N (Byte.to_N e) |})
  | x02 :: material => inl (ECDSAPublicKey material)
  | x03 :: material => inl (Ed25519PublicKey material)
  | _ => inr (Foreign "crypto/x509" "failed to parse public key")
  end.

(** The toy signature of a digest under a key is the digest followed by
    the low byte of the modulus. *)
Definition VerifyPSS (pub : rsa_PublicKey) (h : Hash) (digest sig : bytes)
    (opts : PSSOptions) : option error :=
  if bytes_eqb sig (digest ++ [byte_of_N (Z.to_N (rsa_N pub))])
  then None
  else Some (Foreign "crypto/rsa" "crypto/rsa: verification error").

(** The standard signing method: decode, check the key type and the
    hash, verify in process; the in-process check reads the key through
    its pointer. *)
Definition StandardVerify (h : Hash) (signingString signature : string)
    (key : KeyArg nat unit) : Result (option error) :=
  match DecodeSegment signature with
  | inr err => Ret (Some err)
  | inl sig =>
      match key with
      | KeyRSAPublic p =>
          if Available h
          then
            match p with
            | Some pub =>
                Ret (VerifyPSS pub h (Sum (bytes_of_string signingString) []) sig
                       {| SaltLength := PSSSaltLengthAuto; PSSHash := 0%N |})
            | None => Panic "invalid memory address or nil pointer dereference"
            end
          else Ret (Some ErrHashUnavailable)
      | _ => Ret (Some (Foreign "jwt" "key is invalid"))
      end
  end.

Definition collaborators : Collaborators := {|
  Net := nat;
  Ctx := unit;
  hasher := bytes;
  SigningMethodRSAPSS := Hash;
  Hash_Available := Available;
  Hash_New := fun _ => [];
  hasher_Write := fun st b => st ++ b;
  hasher_Sum := Sum;
  jwt_DecodeSegment := DecodeSegment;
  x509_ParsePKIXPublicKey := ParsePKIXPublicKey;
  rsa_VerifyPSS := VerifyPSS;
  SigningMethodRSAPSS_Verify := StandardVerify;
  remoteVerifyLabel := "verifying signature remotely: "
|}.

(** Gateway clients.  The remote state counts the calls served. *)
Definition remote_check (_ : unit) (keyID algo : string) (digest sig : bytes)
    (n : nat) : option error * nat :=
  (if bytes_eqb sig digest then None
   else Some (Foreign "kms" "KMSInvalidSignatureException"), S n).

Definition client_rsa : KMSClient nat unit := {|
  GetPublicKey := fun _ _ n => (inl [x01; x07; x03], S n);
  RemoteVerify := remote_check
|}.

Definition client_ec : KMSClient nat unit := {|
  GetPublicKey := fun _ _ n => (inl [x02; x04; x2a], S n);
  RemoteVerify := remote_check
|}.

Definition client_garbage : KMSClient nat unit := {|
  GetPublicKey := fun _ _ n => (inl [xff], S n);
  RemoteVerify := remote_check
|}.

Definition client_down : KMSClient nat unit := {|
  GetPublicKey := fun _ _ n => (inr (Foreign "kms" "context deadline exceeded"), S n);
  RemoteVerify := fun _ _ _ _ _ n => (Some (Foreign "kms" "context deadline exceeded"), S n)
|}.

Definition config (client : KMSClient nat unit) (remote : bool) : Config nat unit :=
  {| kmsKeyID := "test-key"; verifyWithKMS := remote; kmsClient := client; ctx := tt |}.

Definition PS256 : PSSSigningMethod (H := collaborators) :=
  @Build_PSSSigningMethod collaborators
    {| algo := "RSASSA_PSS_SHA_256"; hash := 5%N |} 5%N.

(** A method bound to a hash that is not linked in. *)
Definition PS_unlinked : PSSSigningMethod (H := collaborators) :=
  @Build_PSSSigningMethod collaborators
    {| algo := "RSASSA_PSS_SHA_256"; hash := 1%N |} 1%N.

Definition empty_world : World (H := collaborators) :=
  @Build_World collaborators ∅ 0 [].

(** A cache that already holds the key [k] for ["test-key"]. *)
Definition warm_world (k : PublicKey) : World (H := collaborators) :=
  @Build_World collaborators {[ "test-key" := k ]} 0 [].

Definition key7 : rsa_PublicKey := {| rsa_N := 7; rsa_E := 3 |}.

(** ["aGk"] decodes to the bytes of ["hi"]; ["aWgH"] to the toy signature
    of ["hi"] under [key7]. *)
Definition good_signature : string := "aWgH".
Definition bad_signature : string := "aGk".
Definition malformed_signature : string := "a$b".

End Sample.

(** ** Sequences of local verifications *)

(** The calls of one kind for one key identifier, counted in a log. *)
Definition is_fetch_of (K : string) (e : Event) : bool :=
  match e with KMSGetPublicKey k => String.eqb k K | _ => false end.

Definition is_add_of (K : string) (e : Event) : bool :=
  match e with CacheAdd k _ => String.eqb k K | _ => false end.

Definition count_fetches_of (K : string) (l : list Event) : nat :=
  length (List.filter (is_fetch_of K) l).

Definition count_adds_of (K : string) (l : list Event) : nat :=
  length (List.filter (is_add_of K) l).

Section LocalRuns.
Context `{Collaborators}.

(** The arguments of one [localVerifyPSS] call. *)
Record LocalCall := {
  local_cfg : Config Net Ctx;
  local_hash : Hash;
  local_digest : bytes;
  local_sig : bytes
}.

(** The world after one call, and after a list of calls made in turn. *)
Definition run_local (c : LocalCall) (w : World) : World :=
  snd (localVerifyPSS (local_cfg c) (local_hash c) (local_digest c) (local_sig c) w).

Definition run_locals (cs : list LocalCall) (w : World) : World :=
  fold_left (fun w c => run_local c w) cs w.
End LocalRuns.

(** A gateway that fails on its first call and serves an RSA key from
    then on, and local calls to run against the sample clients. *)
Module Scenario.

Definition client_flaky : KMSClient nat unit := {|
  GetPublicKey := fun _ _ n =>
    match n with
    | O => (inr (Foreign "kms" "context deadline exceeded"), S n)
    | S _ => (inl [x01; x07; x03], S n)
    end;
  RemoteVerify := Sample.remote_check
|}.

Definition local_call_with (client : KMSClient nat unit) (keyID : string)
    (sig : bytes) : LocalCall (H := Sample.collaborators) :=
  @Build_LocalCall Sample.collaborators
    {| kmsKeyID := keyID; verifyWithKMS := false; kmsClient := client; ctx := tt |}
    5%N [x69; x68] sig.

(** Three calls for ["test-key"] (a failed fetch, a good signature, a bad
    one) around a call for another key. *)
Definition session : list (LocalCall (H := Sample.collaborators)) :=
  [ local_call_with client_flaky "test-key" [x69; x68; x07];
    local_call_with client_flaky "test-key" [x69; x68; x07];
    local_call_with Sample.client_ec "other-key" [x69; x68; x07];
    local_call_with client_flaky "test-key" [x68; x69] ].

End Scenario.

(** * Properties *)

(** ** Equations of the local verifier, one per path through the code *)
Section LocalPaths.
Context `{Collaborators}.
Implicit Types (cfg : Config Net Ctx) (w : World) (key : PublicKey).

(** The result of the last two statements of [localVerifyPSS] once
    [cachedKey] is set. *)
Definition verdict key (h : Hash) (digest sig : bytes) : option error :=
  match as_rsa_PublicKey key with
  | None => Some (errors_New "invalid key type for key")
  | Some pub =>
      match rsa_VerifyPSS pub h digest sig PSSOptions_zero with
      | Some err => Some (fmt_Errorf_w "verifying signature locally: " err)
      | None => None
      end
  end.

(** Closes a goal on a fully evaluated run: the log is compared up to
    the bracketing of its appends. *)
Ltac same_run := unfold ret, log; cbn; rewrite <- ?app_assoc; reflexivity.

Lemma localVerifyPSS_hit cfg h digest sig w key :
  pubkeyCache w !! kmsKeyID cfg = Some key ->
  localVerifyPSS cfg h digest sig w
  = (Ret (verdict key h digest sig), log (CacheGet (kmsKeyID cfg)) w).
Proof.
  intros Hhit. unfold localVerifyPSS, bind, pubkeyCache_Get, verdict.
  rewrite Hhit. cbn.
  destruct (as_rsa_PublicKey key) as [pub|]; [|reflexivity].
  destruct (rsa_VerifyPSS pub h digest sig PSSOptions_zero); reflexivity.
Qed.

Lemma localVerifyPSS_fetch_failed cfg h digest sig w err n :
  cache_miss cfg w ->
  fetch cfg w = (inr err, n) ->
  localVerifyPSS cfg h digest sig w
  = (Ret (Some (fmt_Errorf_w "getting public key: " err)),
     {| pubkeyCache := pubkeyCache w; net := n;
        calls := calls w ++ [CacheGet (kmsKeyID cfg);
                              KMSGetPublicKey (kmsKeyID cfg)] |}).
Proof.
  unfold cache_miss, fetch. intros Hmiss Hfetch.
  unfold localVerifyPSS, bind, pubkeyCache_Get, kmsClient_GetPublicKey.
  rewrite Hmiss. cbn. rewrite Hfetch. same_run.
Qed.

Lemma localVerifyPSS_parse_failed cfg h digest sig w der err n :
  cache_miss cfg w ->
  fetch cfg w = (inl der, n) ->
  x509_ParsePKIXPublicKey der = inr err ->
  localVerifyPSS cfg h digest sig w
  = (Ret (Some (fmt_Errorf_w "parsing public key: " err)),
     {| pubkeyCache := pubkeyCache w; net := n;
        calls := calls w ++ [CacheGet (kmsKeyID cfg);
                              KMSGetPublicKey (kmsKeyID cfg)] |}).
Proof.
  unfold cache_miss, fetch. intros Hmiss Hfetch Hparse.
  unfold localVerifyPSS, bind, pubkeyCache_Get, kmsClient_GetPublicKey.
  rewrite Hmiss. cbn. rewrite Hfetch. cbn. rewrite Hparse. same_run.
Qed.

Lemma localVerifyPSS_fetched cfg h digest sig w der key n :
  cache_miss cfg w ->
  fetch cfg w = (inl der, n) ->
  x509_ParsePKIXPublicKey der = inl key ->
  localVerifyPSS cfg h digest sig w
  = (Ret (verdict key h digest sig),
     {| pubkeyCache := <[kmsKeyID cfg := key]> (pubkeyCache w); net := n;
        calls := calls w ++ [CacheGet (kmsKeyID cfg);
                              KMSGetPublicKey (kmsKeyID cfg);
                              CacheAdd (kmsKeyID cfg) key] |}).
Proof.
  unfold cache_miss, fetch. intros Hmiss Hfetch Hparse.
  unfold localVerifyPSS, bind, pubkeyCache_Get, kmsClient_GetPublicKey,
    pubkeyCache_Add, verdict.
  rewrite Hmiss. cbn. rewrite Hfetch. cbn. rewrite Hparse. cbn.
  destruct (as_rsa_PublicKey key) as [pub|]; [|same_run].
  destruct (rsa_VerifyPSS pub h digest sig PSSOptions_zero); same_run.
Qed.

(** On the local branch [Verify] is [localVerifyPSS] on the digest. *)
Lemma Verify_local_path m signingString signature cfg sig w :
  local_call m signature cfg sig ->
  Verify m signingString signature (KeyConfig (Some cfg)) w
  = localVerifyPSS cfg (hash (rsaSigningMethod m)) (digest_of m signingString) sig w.
Proof.
  intros (Hlocal & Hdec & Hav). unfold Verify. cbn.
  rewrite Hdec, Hav. cbn. unfold bind. cbn. rewrite Hlocal. reflexivity.
Qed.
End LocalPaths.

(** ** The cache only grows *)
Section CacheFrame.
Context `{Collaborators}.
Implicit Types (cfg : Config Net Ctx) (w : World) (key : PublicKey).

Lemma count_GetPublicKey_CacheGet (l : list Event) keyID :
  count_GetPublicKey (l ++ [CacheGet keyID]) = count_GetPublicKey l.
Proof.
  unfold count_GetPublicKey. rewrite List.filter_app. cbn.
  now rewrite app_nil_r.
Qed.

Lemma verifyRSAOrPSS_run cfg a digest sig w :
  exists r n,
    verifyRSAOrPSS cfg a digest sig w
    = (Ret r,
       {| pubkeyCache := pubkeyCache w; net := n;
          calls := calls w ++ [KMSVerify (kmsKeyID cfg) a digest sig] |}).
Proof.
  unfold verifyRSAOrPSS, bind, kmsClient_Verify.
  destruct (RemoteVerify (kmsClient cfg) (ctx cfg) (kmsKeyID cfg) a digest sig (net w))
    as [[err|] n]; cbn; eauto.
Qed.

Lemma localVerifyPSS_keeps_entries cfg h digest sig w k v :
  pubkeyCache w !! k = Some v ->
  pubkeyCache (snd (localVerifyPSS cfg h digest sig w)) !! k = Some v.
Proof.
  intros Hk.
  destruct (pubkeyCache w !! kmsKeyID cfg) as [key|] eqn:Hc.
  - rewrite (localVerifyPSS_hit _ _ _ _ _ _ Hc). exact Hk.
  - destruct (fetch cfg w) as [[der|err] n] eqn:Hf.
    + destruct (x509_ParsePKIXPublicKey der) as [key|err] eqn:Hp.
      * rewrite (localVerifyPSS_fetched _ _ _ _ _ _ _ _ Hc Hf Hp). cbn.
        rewrite lookup_insert_ne; [exact Hk|]. unfold cache_miss in Hc. congruence.
      * rewrite (localVerifyPSS_parse_failed _ _ _ _ _ _ _ _ Hc Hf Hp). exact Hk.
    + rewrite (localVerifyPSS_fetch_failed _ _ _ _ _ _ _ Hc Hf). exact Hk.
Qed.

(** No [Verify] call removes or replaces an entry of the cache. *)
Lemma Verify_keeps_entries m signingString signature keyConfig w k v :
  pubkeyCache w !! k = Some v ->
  pubkeyCache (snd (Verify m signingString signature keyConfig w)) !! k = Some v.
Proof.
  intros Hk. unfold Verify.
  destruct keyConfig as [|[cfg|]|p|o]; cbn; try exact Hk.
  - destruct (jwt_DecodeSegment signature) as [sig|err]; [|exact Hk].
    destruct (Hash_Available _); cbn; [|exact Hk].
    unfold bind. cbn. destruct (verifyWithKMS cfg).
    + destruct (verifyRSAOrPSS_run cfg (algo (rsaSigningMethod m))
                  (hasher_Sum (hasher_Write (Hash_New (hash (rsaSigningMethod m)))
                                 (bytes_of_string signingString)) []) sig w)
        as (r & n & ->).
      exact Hk.
    + now apply localVerifyPSS_keeps_entries.
  - destruct (jwt_DecodeSegment signature) as [sig|err]; [|exact Hk].
    destruct (Hash_Available _); cbn; exact Hk.
Qed.

Lemma run_calls_keeps_entries cs w k v :
  pubkeyCache w !! k = Some v ->
  pubkeyCache (run_calls cs w) !! k = Some v.
Proof.
  revert w. induction cs as [|c cs IH]; intros w Hk; [exact Hk|].
  cbn. apply IH. unfold run_call. now apply Verify_keeps_entries.
Qed.

(** A local call that returns [nil] leaves an RSA key for its key
    identifier in the cache. *)
Lemma successful_local_verify_caches m signingString signature cfg sig w :
  local_call m signature cfg sig ->
  fst (Verify m signingString signature (KeyConfig (Some cfg)) w) = Ret None ->
  exists pub,
    pubkeyCache (snd (Verify m signingString signature (KeyConfig (Some cfg)) w))
      !! kmsKeyID cfg = Some (RSAPublicKey pub).
Proof.
  intros Hlocal. rewrite (Verify_local_path _ _ _ _ _ _ Hlocal).
  destruct (pubkeyCache w !! kmsKeyID cfg) as [key|] eqn:Hc.
  - rewrite (localVerifyPSS_hit _ _ _ _ _ _ Hc). cbn. unfold verdict.
    destruct key as [pub| | | |]; cbn; try discriminate. eauto.
  - destruct (fetch cfg w) as [[der|err] n] eqn:Hf.
    + destruct (x509_ParsePKIXPublicKey der) as [key|err] eqn:Hp.
      * rewrite (localVerifyPSS_fetched _ _ _ _ _ _ _ _ Hc Hf Hp). cbn.
        unfold verdict. destruct key as [pub| | | |]; cbn; try discriminate.
        intros _. exists pub. apply lookup_insert_eq.
      * rewrite (localVerifyPSS_parse_failed _ _ _ _ _ _ _ _ Hc Hf Hp).
        discriminate.
    + rewrite (localVerifyPSS_fetch_failed _ _ _ _ _ _ _ Hc Hf). discriminate.
Qed.

(** A local call for a key identifier whose entry was in the cache some
    calls earlier: the run is the cache read and the verdict on the
    cached key. *)
Lemma cached_entry_run key w0 (between : list Call) m signingString signature
    cfg sig :
  pubkeyCache w0 !! kmsKeyID cfg = Some key ->
  local_call m signature cfg sig ->
  let w := run_calls between w0 in
  Verify m signingString signature (KeyConfig (Some cfg)) w
  = (Ret (verdict key (hash (rsaSigningMethod m)) (digest_of m signingString) sig),
     log (CacheGet (kmsKeyID cfg)) w) /\
  count_GetPublicKey (calls (log (CacheGet (kmsKeyID cfg)) w))
  = count_GetPublicKey (calls w).
Proof.
  intros Hk Hlocal w.
  assert (Hhit : pubkeyCache w !! kmsKeyID cfg = Some key)
    by now apply run_calls_keeps_entries.
  rewrite (Verify_local_path _ _ _ _ _ _ Hlocal).
  rewrite (localVerifyPSS_hit _ _ _ _ _ _ Hhit).
  split; [reflexivity|]. apply count_GetPublicKey_CacheGet.
Qed.
End CacheFrame.

(** ** Concrete runs *)

Example run_local_verify_accepts :
  Verify Sample.PS256 "hi" Sample.good_signature
    (KeyConfig (Some (Sample.config Sample.client_rsa false))) Sample.empty_world
  = (Ret None,
     @Build_World Sample.collaborators
       {[ "test-key" := RSAPublicKey Sample.key7 ]} 1
       [CacheGet "test-key"; KMSGetPublicKey "test-key";
        CacheAdd "test-key" (RSAPublicKey Sample.key7)]).
Proof. reflexivity. Qed.

Example run_hash_not_linked :
  Verify Sample.PS_unlinked "hi" Sample.good_signature
    (KeyConfig (Some (Sample.config Sample.client_rsa false))) Sample.empty_world
  = (Ret (Some ErrHashUnavailable), Sample.empty_world).
Proof. reflexivity. Qed.

Example run_nil_config_pointer :
  fst (Verify Sample.PS256 "hi" Sample.good_signature (KeyConfig None)
         Sample.empty_world)
  = Panic "invalid memory address or nil pointer dereference".
Proof. reflexivity. Qed.

Example run_raw_key_accepts :
  Verify Sample.PS256 "hi" Sample.good_signature (KeyRSAPublic (Some Sample.key7))
    Sample.empty_world
  = (Ret None, Sample.empty_world).
Proof. reflexivity. Qed.

Example run_nil_raw_key_pointer_panics :
  Verify Sample.PS256 "hi" Sample.good_signature (KeyRSAPublic None)
    Sample.empty_world
  = (Panic "invalid memory address or nil pointer dereference", Sample.empty_world).
Proof. reflexivity. Qed.

Example run_nil_raw_key_pointer_malformed :
  Verify Sample.PS256 "hi" Sample.malformed_signature (KeyRSAPublic None)
    Sample.empty_world
  = (Ret (Some (Foreign "encoding/base64" "illegal base64 data")),
     Sample.empty_world).
Proof. reflexivity. Qed.

(** With a configuration, an unavailable hash is reported before the key
    is looked up or fetched. *)
Lemma Verify_hash_unavailable `{Collaborators} (m : PSSSigningMethod)
    (signingString signature : string) (p : option (Config Net Ctx))
    (sig : bytes) (w : World) :
  jwt_DecodeSegment signature = inl sig ->
  Hash_Available (hash (rsaSigningMethod m)) = false ->
  Verify m signingString signature (KeyConfig p) w = (Ret (Some ErrHashUnavailable), w).
Proof.
  intros Hdec Hav. unfold Verify. cbn. now rewrite Hdec, Hav.
Qed.

(** ** The type dispatch of [Verify] *)

(** C9: for the nil key argument [Verify] returns [ErrInvalidKeyType] for
    every signing string and signature, whatever the collaborators would
    answer, and leaves the world (cache, remote side and call log) as it
    was: nothing is decoded, hashed, looked up or fetched. *)
Theorem Verify_nil_key_invalid `{Collaborators} (m : PSSSigningMethod)
    (signingString signature : string) (w : World) :
  Verify m signingString signature KeyNil w = (Ret (Some ErrInvalidKeyType), w).
Proof. reflexivity. Qed.

(** C2: for every key argument that is neither a pointer to [Config] nor a
    pointer to [rsa.PublicKey], [Verify] returns [ErrInvalidKeyType], for
    all signing strings and signatures. *)
Theorem Verify_other_key_invalid `{Collaborators} (m : PSSSigningMethod)
    (signingString signature : string) (keyConfig : KeyArg Net Ctx) (w : World) :
  as_Config keyConfig = None ->
  as_rsa_pointer keyConfig = None ->
  Verify m signingString signature keyConfig w = (Ret (Some ErrInvalidKeyType), w).
Proof.
  intros Hcfg Hrsa. unfold Verify. now rewrite Hcfg, Hrsa.
Qed.

Lemma Verify_other_key_invalid_witness :
  Verify Sample.PS256 "hi" Sample.good_signature
    (KeyOther (VConfig (Sample.config Sample.client_rsa false))) Sample.empty_world
  = (Ret (Some ErrInvalidKeyType), Sample.empty_world).
Proof.
  apply (Verify_other_key_invalid (H := Sample.collaborators)); reflexivity.
Defined.

(** C3: for every raw [rsa.PublicKey] pointer passed as the key, the
    outcome of [Verify] is exactly the outcome of the fallback signing
    method on the same signing string, signature and key (its returned
    error or [nil], or its panic when it is handed a nil pointer), and the
    world is untouched: no gateway call, no cache read or write. *)
Theorem Verify_raw_key_delegates `{Collaborators} (m : PSSSigningMethod)
    (signingString signature : string) (p : option rsa_PublicKey) (w : World) :
  Verify m signingString signature (KeyRSAPublic p) w
  = (SigningMethodRSAPSS_Verify (fallbackSigningMethod m)
       signingString signature (KeyRSAPublic p), w).
Proof. reflexivity. Qed.

(** C4: for every configuration pointer and every signature that does not
    decode, [Verify] returns the decode error wrapped as
    ["decoding signature: ..."], and the world is untouched: no gateway
    operation and no cache access came before it. *)
Theorem Verify_malformed_signature `{Collaborators} (m : PSSSigningMethod)
    (signingString signature : string) (p : option (Config Net Ctx))
    (err : error) (w : World) :
  jwt_DecodeSegment signature = inr err ->
  Verify m signingString signature (KeyConfig p) w
  = (Ret (Some (fmt_Errorf_w "decoding signature: " err)), w).
Proof.
  intros Hdec. unfold Verify. cbn. now rewrite Hdec.
Qed.

Lemma Verify_malformed_signature_witness :
  Verify Sample.PS256 "hi" Sample.malformed_signature
    (KeyConfig (Some (Sample.config Sample.client_rsa false))) Sample.empty_world
  = (Ret (Some (fmt_Errorf_w "decoding signature: "
                  (Foreign "encoding/base64" "illegal base64 data"))),
     Sample.empty_world).
Proof.
  apply (Verify_malformed_signature (H := Sample.collaborators)). reflexivity.
Defined.

(** ** The remote branch *)

(** C5: for a configuration with [verifyWithKMS] set, a signature that
    decodes and an available hash, [Verify] is the remote helper applied
    to the configuration, the algorithm tag, the digest of the signing
    string and the decoded signature; the cache afterwards is the cache
    before, and the only call added to the log is the gateway's [Verify]. *)
Theorem Verify_remote_branch `{Collaborators} (m : PSSSigningMethod)
    (signingString signature : string) (cfg : Config Net Ctx) (sig : bytes)
    (w : World) :
  verifyWithKMS cfg = true ->
  jwt_DecodeSegment signature = inl sig ->
  Hash_Available (hash (rsaSigningMethod m)) = true ->
  let run := Verify m signingString signature (KeyConfig (Some cfg)) w in
  run = verifyRSAOrPSS cfg (algo (rsaSigningMethod m))
          (digest_of m signingString) sig w /\
  pubkeyCache (snd run) = pubkeyCache w /\
  added_calls w (snd run)
    [KMSVerify (kmsKeyID cfg) (algo (rsaSigningMethod m))
       (digest_of m signingString) sig].
Proof.
  intros Hremote Hdec Hav run.
  assert (Hrun : run = verifyRSAOrPSS cfg (algo (rsaSigningMethod m))
                         (digest_of m signingString) sig w).
  { unfold run, Verify. cbn. rewrite Hdec, Hav. cbn. unfold bind. cbn.
    now rewrite Hremote. }
  split; [exact Hrun|]. rewrite Hrun.
  destruct (verifyRSAOrPSS_run cfg (algo (rsaSigningMethod m))
              (digest_of m signingString) sig w) as (r & n & ->).
  split; reflexivity.
Qed.

Lemma Verify_remote_branch_witness :
  let run := Verify Sample.PS256 "hi" "aWg"
               (KeyConfig (Some (Sample.config Sample.client_rsa true)))
               (Sample.warm_world (RSAPublicKey Sample.key7)) in
  run = verifyRSAOrPSS (H := Sample.collaborators)
          (Sample.config Sample.client_rsa true) "RSASSA_PSS_SHA_256"
          (digest_of Sample.PS256 "hi") [x69; x68]
          (Sample.warm_world (RSAPublicKey Sample.key7)) /\
  pubkeyCache (snd run) = pubkeyCache (Sample.warm_world (RSAPublicKey Sample.key7)) /\
  added_calls (Sample.warm_world (RSAPublicKey Sample.key7)) (snd run)
    [KMSVerify "test-key" "RSASSA_PSS_SHA_256" (digest_of Sample.PS256 "hi") [x69; x68]].
Proof.
  apply (Verify_remote_branch (H := Sample.collaborators)); reflexivity.
Defined.

(** ** The local branch *)

(** C1: on the local branch (no remote verify, a signature that decodes,
    an available hash), once the key is resolved to an RSA key [pub],
    [Verify] checks the decoded signature with [rsa.VerifyPSS] under [pub],
    the method's hash, the digest of the signing string and the zero
    [PSSOptions] (salt length [PSSSaltLengthAuto], no override).  It
    returns [nil] only if that check returns [nil]; a failed check is
    returned wrapped as ["verifying signature locally: ..."], never as
    [nil]. *)
Theorem Verify_local_pss_check `{Collaborators} (m : PSSSigningMethod)
    (signingString signature : string) (cfg : Config Net Ctx) (sig : bytes)
    (w : World) (pub : rsa_PublicKey) :
  local_call m signature cfg sig ->
  key_resolves cfg w (RSAPublicKey pub) ->
  let check :=
    rsa_VerifyPSS pub (hash (rsaSigningMethod m)) (digest_of m signingString) sig
      {| SaltLength := PSSSaltLengthAuto; PSSHash := 0%N |} in
  let result := fst (Verify m signingString signature (KeyConfig (Some cfg)) w) in
  (forall err, check = Some err ->
     result = Ret (Some (fmt_Errorf_w "verifying signature locally: " err))) /\
  (check = None -> result = Ret None) /\
  (check <> None -> result <> Ret None).
Proof.
  intros Hlocal Hres check result.
  assert (Hresult : result
                    = Ret (verdict (RSAPublicKey pub) (hash (rsaSigningMethod m))
                             (digest_of m signingString) sig)).
  { unfold result. rewrite (Verify_local_path _ _ _ _ _ _ Hlocal).
    destruct Hres as [Hhit | (Hmiss & der & Hfetch & Hparse)].
    - now rewrite (localVerifyPSS_hit _ _ _ _ _ _ Hhit).
    - destruct (fetch cfg w) as [r n] eqn:Hf. cbn in Hfetch. subst r.
      now rewrite (localVerifyPSS_fetched _ _ _ _ _ _ _ _ Hmiss Hf Hparse). }
  rewrite Hresult. unfold verdict. cbn. subst check.
  change {| SaltLength := PSSSaltLengthAuto; PSSHash := 0%N |} with PSSOptions_zero.
  destruct (rsa_VerifyPSS pub _ _ sig PSSOptions_zero) as [e|].
  - repeat split; [intros err [= ->]; reflexivity | discriminate | discriminate].
  - repeat split; [discriminate | congruence].
Qed.

Lemma Verify_local_pss_check_witness :
  fst (Verify Sample.PS256 "hi" Sample.bad_signature
         (KeyConfig (Some (Sample.config Sample.client_rsa false)))
         Sample.empty_world)
  = Ret (Some (fmt_Errorf_w "verifying signature locally: "
                 (Foreign "crypto/rsa" "crypto/rsa: verification error"))).
Proof.
  refine (proj1 (Verify_local_pss_check (H := Sample.collaborators)
                   Sample.PS256 "hi" Sample.bad_signature
                   (Sample.config Sample.client_rsa false) [x68; x69]
                   Sample.empty_world Sample.key7 _ _) _ _).
  - repeat split.
  - right. split; [reflexivity|]. exists [x01; x07; x03]. split; reflexivity.
  - reflexivity.
Defined.

(** C8: on the local branch, when the key the call resolves (cached, or
    fetched and parsed) is not an RSA key, [Verify] returns the error made
    by [errors.New] whose message is ["invalid key type for key"]. *)
Theorem Verify_local_non_rsa_key `{Collaborators} (m : PSSSigningMethod)
    (signingString signature : string) (cfg : Config Net Ctx) (sig : bytes)
    (w : World) (key : PublicKey) :
  local_call m signature cfg sig ->
  key_resolves cfg w key ->
  as_rsa_PublicKey key = None ->
  exists e,
    fst (Verify m signingString signature (KeyConfig (Some cfg)) w) = Ret (Some e) /\
    e = errors_New "invalid key type for key" /\
    Error e = "invalid key type for key" /\
    Unwrap e = None.
Proof.
  intros Hlocal Hres Hkind. exists (errors_New "invalid key type for key").
  repeat split. rewrite (Verify_local_path _ _ _ _ _ _ Hlocal).
  destruct Hres as [Hhit | (Hmiss & der & Hfetch & Hparse)].
  - rewrite (localVerifyPSS_hit _ _ _ _ _ _ Hhit). cbn. unfold verdict.
    now rewrite Hkind.
  - destruct (fetch cfg w) as [r n] eqn:Hf. cbn in Hfetch. subst r.
    rewrite (localVerifyPSS_fetched _ _ _ _ _ _ _ _ Hmiss Hf Hparse). cbn.
    unfold verdict. now rewrite Hkind.
Qed.

Lemma Verify_local_non_rsa_key_witness :
  exists e,
    fst (Verify Sample.PS256 "hi" Sample.good_signature
           (KeyConfig (Some (Sample.config Sample.client_rsa false)))
           (Sample.warm_world (Ed25519PublicKey [x2a])))
    = Ret (Some e) /\
    e = errors_New "invalid key type for key" /\
    Error e = "invalid key type for key" /\
    Unwrap e = None.
Proof.
  apply (Verify_local_non_rsa_key (H := Sample.collaborators)
           Sample.PS256 "hi" Sample.good_signature
           (Sample.config Sample.client_rsa false) [x69; x68; x07]
           (Sample.warm_world (Ed25519PublicKey [x2a])) (Ed25519PublicKey [x2a])).
  - repeat split.
  - left. reflexivity.
  - reflexivity.
Defined.

(** ** The cache on the local branch *)

(** C6: if the cache holds an entry for key identifier [K], then after
    any further [Verify] calls a local verify for [K] reads the key from
    the cache, decides with that key, and adds only the cache read to the
    log: the number of [GetPublicKey] calls and the remote side are as
    before the call. *)
Theorem Verify_local_cache_hit `{Collaborators} (K : string) (key : PublicKey)
    (w0 : World) (between : list Call) (m : PSSSigningMethod)
    (signingString signature : string) (cfg : Config Net Ctx) (sig : bytes) :
  pubkeyCache w0 !! K = Some key ->
  local_call m signature cfg sig ->
  kmsKeyID cfg = K ->
  let w := run_calls between w0 in
  let run := Verify m signingString signature (KeyConfig (Some cfg)) w in
  fst run = Ret (verdict key (hash (rsaSigningMethod m))
                   (digest_of m signingString) sig) /\
  added_calls w (snd run) [CacheGet K] /\
  count_GetPublicKey (calls (snd run)) = count_GetPublicKey (calls w) /\
  net (snd run) = net w /\
  pubkeyCache (snd run) = pubkeyCache w.
Proof.
  intros Hk Hlocal HK w run. subst K.
  destruct (cached_entry_run key w0 between m signingString signature cfg sig
              Hk Hlocal) as [Hrun Hcount].
  fold w in Hrun, Hcount. unfold run. rewrite Hrun. cbn.
  repeat split. exact Hcount.
Qed.

Lemma Verify_local_cache_hit_witness :
  let w := run_calls (H := Sample.collaborators)
             [ {| call_method := Sample.PS256; call_signingString := "hi";
                  call_signature := Sample.good_signature;
                  call_key := KeyConfig (Some (Sample.config Sample.client_ec false)) |} ]
             Sample.empty_world in
  let run := Verify Sample.PS256 "hi" Sample.good_signature
               (KeyConfig (Some (Sample.config Sample.client_rsa false))) w in
  fst run = Ret (Some (errors_New "invalid key type for key")) /\
  count_GetPublicKey (calls (snd run)) = 1.
Proof.
  pose proof (Verify_local_cache_hit (H := Sample.collaborators)
                "test-key" (ECDSAPublicKey [x04; x2a])
                (snd (Verify (H := Sample.collaborators) Sample.PS256 "hi"
                        Sample.good_signature
                        (KeyConfig (Some (Sample.config Sample.client_ec false)))
                        Sample.empty_world))
                [] Sample.PS256 "hi" Sample.good_signature
                (Sample.config Sample.client_rsa false) [x69; x68; x07]
                eq_refl (conj eq_refl (conj eq_refl eq_refl)) eq_refl)
    as (Hres & _ & Hcount & _).
  split; [exact Hres | exact Hcount].
Defined.

(** After a local verify that returned [nil], a second local verify for
    the same key identifier makes no [GetPublicKey] call. *)
Corollary second_local_verify_fetches_nothing `{Collaborators}
    (m m' : PSSSigningMethod) (s s' signature signature' : string)
    (cfg cfg' : Config Net Ctx) (sig sig' : bytes) (w : World) :
  local_call m signature cfg sig ->
  local_call m' signature' cfg' sig' ->
  kmsKeyID cfg' = kmsKeyID cfg ->
  fst (Verify m s signature (KeyConfig (Some cfg)) w) = Ret None ->
  let w1 := snd (Verify m s signature (KeyConfig (Some cfg)) w) in
  count_GetPublicKey (calls (snd (Verify m' s' signature' (KeyConfig (Some cfg')) w1)))
  = count_GetPublicKey (calls w1).
Proof.
  intros Hlocal Hlocal' HK Hok w1.
  destruct (successful_local_verify_caches _ _ _ _ _ _ Hlocal Hok) as [pub Hpub].
  rewrite (Verify_local_path _ _ _ _ _ _ Hlocal').
  fold w1 in Hpub. rewrite <- HK in Hpub.
  rewrite (localVerifyPSS_hit _ _ _ _ _ _ Hpub). cbn.
  apply count_GetPublicKey_CacheGet.
Qed.

(** C7: on a cache miss of a local verify, a failed [GetPublicKey] is
    returned wrapped as ["getting public key: ..."] around the gateway's
    error, and key material that does not parse is returned wrapped as
    ["parsing public key: ..."] around the parser's error; in both cases
    the cache afterwards is the cache before, with no entry for the key
    identifier. *)
Theorem Verify_local_miss_errors `{Collaborators} (m : PSSSigningMethod)
    (signingString signature : string) (cfg : Config Net Ctx) (sig : bytes)
    (w : World) :
  local_call m signature cfg sig ->
  cache_miss cfg w ->
  let run := Verify m signingString signature (KeyConfig (Some cfg)) w in
  (forall err n,
     fetch cfg w = (inr err, n) ->
     exists e,
       fst run = Ret (Some e) /\
       e = fmt_Errorf_w "getting public key: " err /\
       Unwrap e = Some err /\
       pubkeyCache (snd run) = pubkeyCache w /\
       pubkeyCache (snd run) !! kmsKeyID cfg = None) /\
  (forall der err n,
     fetch cfg w = (inl der, n) ->
     x509_ParsePKIXPublicKey der = inr err ->
     exists e,
       fst run = Ret (Some e) /\
       e = fmt_Errorf_w "parsing public key: " err /\
       Unwrap e = Some err /\
       pubkeyCache (snd run) = pubkeyCache w /\
       pubkeyCache (snd run) !! kmsKeyID cfg = None).
Proof.
  intros Hlocal Hmiss run. unfold run.
  rewrite (Verify_local_path _ _ _ _ _ _ Hlocal). split.
  - intros err n Hf.
    rewrite (localVerifyPSS_fetch_failed _ _ _ _ _ _ _ Hmiss Hf). cbn.
    eexists. repeat split. exact Hmiss.
  - intros der err n Hf Hp.
    rewrite (localVerifyPSS_parse_failed _ _ _ _ _ _ _ _ Hmiss Hf Hp). cbn.
    eexists. repeat split. exact Hmiss.
Qed.

Lemma Verify_local_miss_errors_witness :
  (exists e,
     fst (Verify Sample.PS256 "hi" Sample.good_signature
            (KeyConfig (Some (Sample.config Sample.client_down false)))
            Sample.empty_world) = Ret (Some e) /\
     Unwrap e = Some (Foreign "kms" "context deadline exceeded")) /\
  (exists e,
     fst (Verify Sample.PS256 "hi" Sample.good_signature
            (KeyConfig (Some (Sample.config Sample.client_garbage false)))
            Sample.empty_world) = Ret (Some e) /\
     Unwrap e = Some (Foreign "crypto/x509" "failed to parse public key")).
Proof.
  split.
  - destruct (proj1 (Verify_local_miss_errors (H := Sample.collaborators)
                       Sample.PS256 "hi" Sample.good_signature
                       (Sample.config Sample.client_down false) [x69; x68; x07]
                       Sample.empty_world
                       (conj eq_refl (conj eq_refl eq_refl)) eq_refl)
                    (Foreign "kms" "context deadline exceeded") 1 eq_refl)
      as (e & Hr & _ & Hu & _).
    exists e. split; [exact Hr | exact Hu].
  - destruct (proj2 (Verify_local_miss_errors (H := Sample.collaborators)
                       Sample.PS256 "hi" Sample.good_signature
                       (Sample.config Sample.client_garbage false) [x69; x68; x07]
                       Sample.empty_world
                       (conj eq_refl (conj eq_refl eq_refl)) eq_refl)
                    [xff] (Foreign "crypto/x509" "failed to parse public key") 1
                    eq_refl eq_refl)
      as (e & Hr & _ & Hu & _).
    exists e. split; [exact Hr | exact Hu].
Defined.

(** C10: when a cache miss of a local verify yields key material that
    parses to a key that is not RSA, the key is added to the cache before
    the call fails with ["invalid key type for key"]; after any further
    [Verify] calls, every local verify for the same key identifier reads
    that key from the cache, fails with the same error, and adds only the
    cache read to the log, so no further [GetPublicKey] call is made. *)
Theorem Verify_local_caches_non_rsa_key `{Collaborators} (m : PSSSigningMethod)
    (signingString signature : string) (cfg : Config Net Ctx) (sig : bytes)
    (w : World) (der : bytes) (key : PublicKey) (n : Net) :
  local_call m signature cfg sig ->
  cache_miss cfg w ->
  fetch cfg w = (inl der, n) ->
  x509_ParsePKIXPublicKey der = inl key ->
  as_rsa_PublicKey key = None ->
  let first := Verify m signingString signature (KeyConfig (Some cfg)) w in
  fst first = Ret (Some (errors_New "invalid key type for key")) /\
  added_calls w (snd first)
    [CacheGet (kmsKeyID cfg); KMSGetPublicKey (kmsKeyID cfg);
     CacheAdd (kmsKeyID cfg) key] /\
  pubkeyCache (snd first) !! kmsKeyID cfg = Some key /\
  forall (between : list Call) (m' : PSSSigningMethod) (s' signature' : string)
         (cfg' : Config Net Ctx) (sig' : bytes),
    local_call m' signature' cfg' sig' ->
    kmsKeyID cfg' = kmsKeyID cfg ->
    let w' := run_calls between (snd first) in
    let later := Verify m' s' signature' (KeyConfig (Some cfg')) w' in
    fst later = Ret (Some (errors_New "invalid key type for key")) /\
    added_calls w' (snd later) [CacheGet (kmsKeyID cfg)] /\
    count_GetPublicKey (calls (snd later)) = count_GetPublicKey (calls w') /\
    net (snd later) = net w'.
Proof.
  intros Hlocal Hmiss Hf Hp Hkind first.
  assert (Hfirst : first
                   = (Ret (Some (errors_New "invalid key type for key")),
                      {| pubkeyCache := <[kmsKeyID cfg := key]> (pubkeyCache w);
                         net := n;
                         calls := calls w ++ [CacheGet (kmsKeyID cfg);
                                              KMSGetPublicKey (kmsKeyID cfg);
                                              CacheAdd (kmsKeyID cfg) key] |})).
  { unfold first. rewrite (Verify_local_path _ _ _ _ _ _ Hlocal).
    rewrite (localVerifyPSS_fetched _ _ _ _ _ _ _ _ Hmiss Hf Hp).
    unfold verdict. now rewrite Hkind. }
  assert (Hcached : pubkeyCache (snd first) !! kmsKeyID cfg = Some key).
  { rewrite Hfirst. cbn. apply lookup_insert_eq. }
  split; [now rewrite Hfirst|]. split; [now rewrite Hfirst|].
  split; [exact Hcached|].
  intros between m' s' signature' cfg' sig' Hlocal' HK w' later.
  rewrite <- HK in Hcached.
  destruct (cached_entry_run key (snd first) between m' s' signature' cfg' sig'
              Hcached Hlocal') as [Hrun Hcount].
  fold w' in Hrun, Hcount. unfold later. rewrite Hrun. cbn.
  unfold verdict. rewrite Hkind, <- HK. repeat split. exact Hcount.
Qed.

Lemma Verify_local_caches_non_rsa_key_witness :
  let first := Verify Sample.PS256 "hi" Sample.good_signature
                 (KeyConfig (Some (Sample.config Sample.client_ec false)))
                 Sample.empty_world in
  let later := Verify Sample.PS256 "hi" Sample.good_signature
                 (KeyConfig (Some (Sample.config Sample.client_rsa false)))
                 (snd first) in
  fst first = Ret (Some (errors_New "invalid key type for key")) /\
  fst later = Ret (Some (errors_New "invalid key type for key")) /\
  count_GetPublicKey (calls (snd later)) = 1.
Proof.
  destruct (Verify_local_caches_non_rsa_key (H := Sample.collaborators)
              Sample.PS256 "hi" Sample.good_signature
              (Sample.config Sample.client_ec false) [x69; x68; x07]
              Sample.empty_world [x02; x04; x2a] (ECDSAPublicKey [x04; x2a]) 1
              (conj eq_refl (conj eq_refl eq_refl)) eq_refl eq_refl eq_refl eq_refl)
    as (Hfirst & _ & _ & Hlater).
  destruct (Hlater [] Sample.PS256 "hi" Sample.good_signature
              (Sample.config Sample.client_rsa false) [x69; x68; x07]
              (conj eq_refl (conj eq_refl eq_refl)) eq_refl)
    as (Hres & _ & Hcount & _).
  split; [exact Hfirst|]. split; [exact Hres | exact Hcount].
Defined.

(** ** One step of the local verifier, and runs of several *)
Section LocalSteps.
Context `{Collaborators}.
Implicit Types (cfg : Config Net Ctx) (w : World) (key : PublicKey) (K : string).

(** The four paths through [localVerifyPSS], told apart by the cache and
    by what the gateway and the parser answer. *)
Lemma localVerifyPSS_cases cfg h digest sig w :
  (exists key,
     pubkeyCache w !! kmsKeyID cfg = Some key /\
     localVerifyPSS cfg h digest sig w
     = (Ret (verdict key h digest sig), log (CacheGet (kmsKeyID cfg)) w)) \/
  (cache_miss cfg w /\ exists err n,
     fetch cfg w = (inr err, n) /\
     localVerifyPSS cfg h digest sig w
     = (Ret (Some (fmt_Errorf_w "getting public key: " err)),
        {| pubkeyCache := pubkeyCache w; net := n;
           calls := calls w ++ [CacheGet (kmsKeyID cfg);
                                 KMSGetPublicKey (kmsKeyID cfg)] |})) \/
  (cache_miss cfg w /\ exists der err n,
     fetch cfg w = (inl der, n) /\ x509_ParsePKIXPublicKey der = inr err /\
     localVerifyPSS cfg h digest sig w
     = (Ret (Some (fmt_Errorf_w "parsing public key: " err)),
        {| pubkeyCache := pubkeyCache w; net := n;
           calls := calls w ++ [CacheGet (kmsKeyID cfg);
                                 KMSGetPublicKey (kmsKeyID cfg)] |})) \/
  (cache_miss cfg w /\ exists der key n,
     fetch cfg w = (inl der, n) /\ x509_ParsePKIXPublicKey der = inl key /\
     localVerifyPSS cfg h digest sig w
     = (Ret (verdict key h digest sig),
        {| pubkeyCache := <[kmsKeyID cfg := key]> (pubkeyCache w); net := n;
           calls := calls w ++ [CacheGet (kmsKeyID cfg);
                                 KMSGetPublicKey (kmsKeyID cfg);
                                 CacheAdd (kmsKeyID cfg) key] |})).
Proof.
  destruct (pubkeyCache w !! kmsKeyID cfg) as [key|] eqn:Hc.
  - left. exists key. split; [reflexivity|]. now apply localVerifyPSS_hit.
  - right. destruct (fetch cfg w) as [[der|err] n] eqn:Hf.
    + destruct (x509_ParsePKIXPublicKey der) as [key|err] eqn:Hp.
      * right; right. split; [exact Hc|]. exists der, key, n.
        repeat split; [exact Hp|]. now apply (localVerifyPSS_fetched _ _ _ _ _ der).
      * right; left. split; [exact Hc|]. exists der, err, n.
        repeat split; [exact Hp|]. now apply (localVerifyPSS_parse_failed _ _ _ _ _ der).
    + left. split; [exact Hc|]. exists err, n.
      split; [reflexivity|]. now apply localVerifyPSS_fetch_failed.
Qed.

Lemma count_fetches_of_app K (l l' : list Event) :
  count_fetches_of K (l ++ l') = count_fetches_of K l + count_fetches_of K l'.
Proof. unfold count_fetches_of. now rewrite List.filter_app, length_app. Qed.

Lemma count_adds_of_app K (l l' : list Event) :
  count_adds_of K (l ++ l') = count_adds_of K l + count_adds_of K l'.
Proof. unfold count_adds_of. now rewrite List.filter_app, length_app. Qed.

Lemma count_GetPublicKey_app (l l' : list Event) :
  count_GetPublicKey (l ++ l') = count_GetPublicKey l + count_GetPublicKey l'.
Proof. unfold count_GetPublicKey. now rewrite List.filter_app, length_app. Qed.

(** Counts the events of a fully evaluated step. *)
Ltac count_step :=
  cbn [snd fst calls pubkeyCache net log];
  rewrite ?count_fetches_of_app, ?count_adds_of_app, ?count_GetPublicKey_app;
  cbn; rewrite ?Nat.add_0_r.

(** One call made while [K] is cached: the entry stays, and no event of
    the call fetches or adds [K]. *)
Lemma run_local_cached_quiet K key (c : LocalCall) w :
  pubkeyCache w !! K = Some key ->
  pubkeyCache (run_local c w) !! K = Some key /\
  count_fetches_of K (calls (run_local c w)) = count_fetches_of K (calls w) /\
  count_adds_of K (calls (run_local c w)) = count_adds_of K (calls w).
Proof.
  intros HK. unfold run_local.
  destruct (localVerifyPSS_cases (local_cfg c) (local_hash c) (local_digest c)
              (local_sig c) w)
    as [(k & Hhit & ->) | [(Hmiss & err & n & _ & ->)
       | [(Hmiss & der & err & n & _ & _ & ->) | (Hmiss & der & k & n & _ & _ & ->)]]];
    unfold cache_miss in *; count_step.
  - auto.
  - destruct (String.eqb_spec (kmsKeyID (local_cfg c)) K) as [<-|Hne]; [congruence|].
    auto.
  - destruct (String.eqb_spec (kmsKeyID (local_cfg c)) K) as [<-|Hne]; [congruence|].
    auto.
  - destruct (String.eqb_spec (kmsKeyID (local_cfg c)) K) as [<-|Hne]; [congruence|].
    rewrite lookup_insert_ne by exact Hne. cbn. rewrite !Nat.add_0_r. auto.
Qed.

Lemma run_locals_cached_quiet K key (cs : list LocalCall) w :
  pubkeyCache w !! K = Some key ->
  pubkeyCache (run_locals cs w) !! K = Some key /\
  count_fetches_of K (calls (run_locals cs w)) = count_fetches_of K (calls w) /\
  count_adds_of K (calls (run_locals cs w)) = count_adds_of K (calls w).
Proof.
  revert w. induction cs as [|c cs IH]; intros w HK; [auto|].
  destruct (run_local_cached_quiet K key c w HK) as (HK' & Hf & Ha).
  destruct (IH (run_local c w) HK') as (HK'' & Hf' & Ha').
  cbn. rewrite <- Hf, <- Ha. auto.
Qed.

(** One call adds [K] to the cache at most once, and then [K] is cached. *)
Lemma run_local_adds K (c : LocalCall) w :
  count_adds_of K (calls (run_local c w)) = count_adds_of K (calls w) \/
  (pubkeyCache w !! K = None /\
   count_adds_of K (calls (run_local c w)) = count_adds_of K (calls w) + 1 /\
   is_Some (pubkeyCache (run_local c w) !! K)).
Proof.
  unfold run_local.
  destruct (localVerifyPSS_cases (local_cfg c) (local_hash c) (local_digest c)
              (local_sig c) w)
    as [(k & Hhit & ->) | [(Hmiss & err & n & _ & ->)
       | [(Hmiss & der & err & n & _ & _ & ->) | (Hmiss & der & k & n & _ & _ & ->)]]];
    unfold cache_miss in *; count_step; auto.
  destruct (String.eqb_spec (kmsKeyID (local_cfg c)) K) as [<-|Hne]; cbn.
  - right. rewrite lookup_insert_eq. split; [exact Hmiss|]. split; [lia|eauto].
  - left. lia.
Qed.

Lemma run_local_fetches (c : LocalCall) w :
  count_GetPublicKey (calls (run_local c w)) <= count_GetPublicKey (calls w) + 1.
Proof.
  unfold run_local.
  destruct (localVerifyPSS_cases (local_cfg c) (local_hash c) (local_digest c)
              (local_sig c) w)
    as [(k & Hhit & ->) | [(Hmiss & err & n & _ & ->)
       | [(Hmiss & der & err & n & _ & _ & ->) | (Hmiss & der & k & n & _ & _ & ->)]]];
    count_step; lia.
Qed.
End LocalSteps.

(** ** Further properties of [Verify] and [localVerifyPSS] *)

Lemma Verify_hash_unavailable_witness :
  Verify Sample.PS_unlinked "hi" Sample.good_signature (KeyConfig None)
    Sample.empty_world
  = (Ret (Some ErrHashUnavailable), Sample.empty_world).
Proof.
  apply (Verify_hash_unavailable (H := Sample.collaborators) Sample.PS_unlinked
           "hi" Sample.good_signature None [x69; x68; x07]); reflexivity.
Defined.

(** X2: a nil pointer to [Config] passes the type assertion, so it is not
    rejected with [ErrInvalidKeyType]: [Verify] reports a signature that
    does not decode, then an unavailable hash, and otherwise panics on
    reading [cfg.verifyWithKMS]; in each case the world is untouched. *)
Theorem Verify_nil_config_pointer `{Collaborators} (m : PSSSigningMethod)
    (signingString signature : string) (w : World) :
  Verify m signingString signature (KeyConfig None) w
  = (match jwt_DecodeSegment signature with
     | inr err => Ret (Some (fmt_Errorf_w "decoding signature: " err))
     | inl _ =>
         if Hash_Available (hash (rsaSigningMethod m))
         then Panic "invalid memory address or nil pointer dereference"
         else Ret (Some ErrHashUnavailable)
     end, w).
Proof.
  unfold Verify. cbn.
  destruct (jwt_DecodeSegment signature) as [sig|err]; [|reflexivity].
  destruct (Hash_Available (hash (rsaSigningMethod m))); reflexivity.
Qed.

(** X3: [localVerifyPSS] either leaves the cache as it was, or the
    configured key identifier was absent, the gateway's answer parsed to a
    key, and the cache is the old one with that key stored under the
    identifier: no other entry changes and none is replaced or removed. *)
Theorem localVerifyPSS_cache_change `{Collaborators} (cfg : Config Net Ctx)
    (h : Hash) (digest sig : bytes) (w : World) :
  let w' := snd (localVerifyPSS cfg h digest sig w) in
  pubkeyCache w' = pubkeyCache w \/
  (pubkeyCache w !! kmsKeyID cfg = None /\
   exists der key,
     fst (fetch cfg w) = inl der /\
     x509_ParsePKIXPublicKey der = inl key /\
     pubkeyCache w' = <[kmsKeyID cfg := key]> (pubkeyCache w)).
Proof.
  intros w'. unfold w'.
  destruct (localVerifyPSS_cases cfg h digest sig w)
    as [(k & Hhit & ->) | [(Hmiss & err & n & _ & ->)
       | [(Hmiss & der & err & n & _ & _ & ->) | (Hmiss & der & k & n & Hf & Hp & ->)]]];
    [left; reflexivity ..|].
  right. split; [exact Hmiss|]. exists der, k. rewrite Hf. auto.
Qed.

(** X4: [localVerifyPSS] always starts with one cache read for the
    configured key identifier.  On a hit that is the only call and the
    remote side is not touched; on a miss exactly one [GetPublicKey] for
    that identifier follows, and at most one cache insert after it.  So a
    call makes at most one [GetPublicKey] call. *)
Theorem localVerifyPSS_calls `{Collaborators} (cfg : Config Net Ctx)
    (h : Hash) (digest sig : bytes) (w : World) :
  let K := kmsKeyID cfg in
  let w' := snd (localVerifyPSS cfg h digest sig w) in
  (is_Some (pubkeyCache w !! K) /\
   added_calls w w' [CacheGet K] /\ net w' = net w
   \/
   pubkeyCache w !! K = None /\
   net w' = snd (fetch cfg w) /\
   (added_calls w w' [CacheGet K; KMSGetPublicKey K] \/
    exists key, added_calls w w' [CacheGet K; KMSGetPublicKey K; CacheAdd K key])) /\
  count_GetPublicKey (calls w') <= count_GetPublicKey (calls w) + 1.
Proof.
  intros K w'. unfold K, w', added_calls.
  destruct (localVerifyPSS_cases cfg h digest sig w)
    as [(k & Hhit & ->) | [(Hmiss & err & n & Hf & ->)
       | [(Hmiss & der & err & n & Hf & _ & ->) | (Hmiss & der & k & n & Hf & _ & ->)]]];
    cbn [snd fst calls pubkeyCache net log]; rewrite ?Hf; cbn [snd];
    (split; [|rewrite count_GetPublicKey_app; cbn; lia]).
  - left. rewrite Hhit. eauto.
  - right. auto.
  - right. auto.
  - right. eauto.
Qed.

(** X5: once a key identifier is cached, no run of local verifications,
    for this or any other identifier, fetches it from the gateway again
    or inserts it again, and its entry stays what it was. *)
Theorem cached_key_is_never_refetched `{Collaborators} (K : string)
    (key : PublicKey) (cs : list LocalCall) (w : World) :
  pubkeyCache w !! K = Some key ->
  let w' := run_locals cs w in
  pubkeyCache w' !! K = Some key /\
  count_fetches_of K (calls w') = count_fetches_of K (calls w) /\
  count_adds_of K (calls w') = count_adds_of K (calls w).
Proof.
  intros HK w'. now apply run_locals_cached_quiet.
Qed.

Lemma cached_key_is_never_refetched_witness :
  let w' := run_locals
              (Scenario.local_call_with Sample.client_ec "other-key" []
                 :: Scenario.session)
              (Sample.warm_world (Ed25519PublicKey [x2a])) in
  pubkeyCache w' !! "test-key" = Some (Ed25519PublicKey [x2a]) /\
  count_fetches_of "test-key" (calls w') = 0 /\
  count_adds_of "test-key" (calls w') = 0.
Proof.
  apply (cached_key_is_never_refetched (H := Sample.collaborators)
           "test-key" (Ed25519PublicKey [x2a])
           (Scenario.local_call_with Sample.client_ec "other-key" []
              :: Scenario.session)
           (Sample.warm_world (Ed25519PublicKey [x2a]))).
  reflexivity.
Defined.

(** X6: in any run of local verifications each key identifier is
    inserted into the cache at most once, and the run makes at most as
    many [GetPublicKey] calls as it has verifications. *)
Theorem key_is_added_at_most_once `{Collaborators} (K : string)
    (cs : list LocalCall) (w : World) :
  count_adds_of K (calls (run_locals cs w)) <= count_adds_of K (calls w) + 1 /\
  count_GetPublicKey (calls (run_locals cs w))
  <= count_GetPublicKey (calls w) + length cs.
Proof.
  split.
  - revert w. induction cs as [|c cs IH]; intros w; [cbn; lia|].
    change (run_locals (c :: cs) w) with (run_locals cs (run_local c w)).
    destruct (run_local_adds K c w) as [Hsame | (_ & Hone & [key Hkey])].
    + rewrite <- Hsame. apply IH.
    + destruct (run_locals_cached_quiet K key cs (run_local c w) Hkey)
        as (_ & _ & Hquiet).
      rewrite Hquiet, Hone. lia.
  - revert w. induction cs as [|c cs IH]; intros w; [cbn; lia|].
    change (run_locals (c :: cs) w) with (run_locals cs (run_local c w)).
    specialize (IH (run_local c w)). pose proof (run_local_fetches c w).
    cbn [length]. lia.
Qed.

(** X7: which key is resolved, and what is fetched and cached on the way,
    does not depend on the token: for a given configuration and world,
    the world after [localVerifyPSS] is the same for every hash, digest
    and signature. *)
Theorem key_resolution_ignores_token `{Collaborators} (cfg : Config Net Ctx)
    (h h' : Hash) (digest digest' sig sig' : bytes) (w : World) :
  snd (localVerifyPSS cfg h digest sig w) = snd (localVerifyPSS cfg h' digest' sig' w).
Proof.
  destruct (localVerifyPSS_cases cfg h digest sig w)
    as [(k & Hhit & ->) | [(Hmiss & err & n & Hf & ->)
       | [(Hmiss & der & err & n & Hf & Hp & ->) | (Hmiss & der & k & n & Hf & Hp & ->)]]].
  - now rewrite (localVerifyPSS_hit _ _ _ _ _ _ Hhit).
  - now rewrite (localVerifyPSS_fetch_failed _ _ _ _ _ _ _ Hmiss Hf).
  - now rewrite (localVerifyPSS_parse_failed _ _ _ _ _ _ _ _ Hmiss Hf Hp).
  - now rewrite (localVerifyPSS_fetched _ _ _ _ _ _ _ _ Hmiss Hf Hp).
Qed.

Lemma verdict_nil `{Collaborators} (key : PublicKey) (h : Hash) (digest sig : bytes) :
  verdict key h digest sig = None ->
  exists pub,
    key = RSAPublicKey pub /\ rsa_VerifyPSS pub h digest sig PSSOptions_zero = None.
Proof.
  unfold verdict. destruct key as [pub| | | |]; cbn; try discriminate.
  destruct (rsa_VerifyPSS pub h digest sig PSSOptions_zero) eqn:Hv; [discriminate|].
  eauto.
Qed.

(** X8: [Verify] returns [nil] only after a check accepted the signature.
    For a raw key the fallback method returned [nil]; for a configuration
    the signature decoded, the hash is available, and the call either
    took the remote branch or [rsa.VerifyPSS] returned [nil] on the
    digest of the signing string under the RSA key that the cache then
    holds for the key identifier.  No other key argument is accepted. *)
Theorem Verify_accepts_only_checked `{Collaborators} (m : PSSSigningMethod)
    (signingString signature : string) (keyConfig : KeyArg Net Ctx) (w : World) :
  fst (Verify m signingString signature keyConfig w) = Ret None ->
  (exists p,
     keyConfig = KeyRSAPublic p /\
     SigningMethodRSAPSS_Verify (fallbackSigningMethod m) signingString signature
       keyConfig = Ret None) \/
  (exists cfg sig,
     keyConfig = KeyConfig (Some cfg) /\
     jwt_DecodeSegment signature = inl sig /\
     Hash_Available (hash (rsaSigningMethod m)) = true /\
     (verifyWithKMS cfg = true \/
      verifyWithKMS cfg = false /\
      exists pub,
        pubkeyCache (snd (Verify m signingString signature keyConfig w))
          !! kmsKeyID cfg = Some (RSAPublicKey pub) /\
        rsa_VerifyPSS pub (hash (rsaSigningMethod m)) (digest_of m signingString)
          sig PSSOptions_zero = None)).
Proof.
  destruct keyConfig as [|[cfg|]|p|o].
  - discriminate.
  - intros Hok. right. exists cfg.
    destruct (jwt_DecodeSegment signature) as [sig|err] eqn:Hdec;
      [|unfold Verify in Hok; cbn in Hok; rewrite Hdec in Hok; discriminate].
    destruct (Hash_Available (hash (rsaSigningMethod m))) eqn:Hav;
      [|unfold Verify in Hok; cbn in Hok; rewrite Hdec, Hav in Hok; discriminate].
    exists sig. repeat split.
    destruct (verifyWithKMS cfg) eqn:Hremote; [left; reflexivity|right].
    split; [reflexivity|].
    assert (Hlocal : local_call m signature cfg sig) by (repeat split; assumption).
    rewrite (Verify_local_path _ _ _ _ _ _ Hlocal) in Hok |- *.
    destruct (localVerifyPSS_cases cfg (hash (rsaSigningMethod m))
                (digest_of m signingString) sig w)
      as [(k & Hhit & Hrun) | [(Hmiss & err & n & _ & Hrun)
         | [(Hmiss & der & err & n & _ & _ & Hrun) | (Hmiss & der & k & n & _ & _ & Hrun)]]];
      rewrite Hrun in Hok |- *; cbn in Hok |- *; try discriminate.
    + injection Hok as Hv. destruct (verdict_nil _ _ _ _ Hv) as (pub & -> & Hcheck).
      eauto.
    + injection Hok as Hv. destruct (verdict_nil _ _ _ _ Hv) as (pub & -> & Hcheck).
      exists pub. split; [apply lookup_insert_eq | exact Hcheck].
  - intros Hok. unfold Verify in Hok. cbn in Hok.
    destruct (jwt_DecodeSegment signature) as [sig|err]; [|discriminate].
    destruct (Hash_Available (hash (rsaSigningMethod m))); discriminate.
  - intros Hok. left. exists p. split; [reflexivity|]. exact Hok.
  - discriminate.
Qed.

Lemma Verify_accepts_only_checked_witness :
  exists pub,
    pubkeyCache
      (snd (Verify Sample.PS256 "hi" Sample.good_signature
              (KeyConfig (Some (Sample.config Sample.client_rsa false)))
              Sample.empty_world))
      !! "test-key" = Some (RSAPublicKey pub) /\
    Sample.VerifyPSS pub 5%N (digest_of Sample.PS256 "hi") [x69; x68; x07]
      PSSOptions_zero = None.
Proof.
  destruct (Verify_accepts_only_checked (H := Sample.collaborators)
              Sample.PS256 "hi" Sample.good_signature
              (KeyConfig (Some (Sample.config Sample.client_rsa false)))
              Sample.empty_world eq_refl)
    as [(p & Hp & _) | (cfg & sig & Hcfg & Hdec & _ & [Hremote | (_ & pub & Hpub & Hv)])].
  - discriminate Hp.
  - injection Hcfg as <-. discriminate Hremote.
  - injection Hcfg as <-. injection Hdec as <-. exists pub. split; assumption.
Defined.

(** X9: a failed resolution is not remembered.  After a cache miss on
    which [GetPublicKey] failed or the key material did not parse, the key
    identifier is still absent, so the next local verification asks the
    gateway again (exactly one more [GetPublicKey] call); if the gateway
    then answers with key material that parses, that call decides with the
    new key and caches it. *)
Theorem failed_resolution_is_retried `{Collaborators} (cfg : Config Net Ctx)
    (h : Hash) (digest sig : bytes) (w : World) :
  cache_miss cfg w ->
  (exists err, fst (fetch cfg w) = inr err) \/
  (exists der err, fst (fetch cfg w) = inl der /\ x509_ParsePKIXPublicKey der = inr err) ->
  let w1 := snd (localVerifyPSS cfg h digest sig w) in
  cache_miss cfg w1 /\
  forall (h' : Hash) (digest' sig' : bytes),
    let second := localVerifyPSS cfg h' digest' sig' w1 in
    count_GetPublicKey (calls (snd second)) = count_GetPublicKey (calls w1) + 1 /\
    forall der key n,
      fetch cfg w1 = (inl der, n) ->
      x509_ParsePKIXPublicKey der = inl key ->
      fst second = Ret (verdict key h' digest' sig') /\
      pubkeyCache (snd second) !! kmsKeyID cfg = Some key.
Proof.
  intros Hmiss Hfail w1.
  assert (Hmiss1 : cache_miss cfg w1).
  { unfold w1.
    destruct (localVerifyPSS_cases cfg h digest sig w)
      as [(k & Hhit & _) | [(_ & err & n & _ & ->)
         | [(_ & der & err & n & _ & _ & ->) | (_ & der & k & n & Hf & Hp & _)]]].
    - unfold cache_miss in Hmiss. congruence.
    - exact Hmiss.
    - exact Hmiss.
    - rewrite Hf in Hfail. cbn in Hfail.
      destruct Hfail as [[err Herr] | (der' & err & Hder & Herr)]; congruence. }
  split; [exact Hmiss1|]. intros h' digest' sig' second. unfold second. split.
  - destruct (localVerifyPSS_cases cfg h' digest' sig' w1)
      as [(k & Hhit & _) | [(_ & err & n & _ & ->)
         | [(_ & der & err & n & _ & _ & ->) | (_ & der & k & n & _ & _ & ->)]]];
      [unfold cache_miss in Hmiss1; congruence | ..];
      cbn [snd calls]; rewrite count_GetPublicKey_app; reflexivity.
  - intros der key n Hf Hp.
    rewrite (localVerifyPSS_fetched _ _ _ _ _ _ _ _ Hmiss1 Hf Hp). cbn.
    split; [reflexivity | apply lookup_insert_eq].
Qed.

Lemma failed_resolution_is_retried_witness :
  let cfg := Sample.config Scenario.client_flaky false in
  let w1 := snd (localVerifyPSS (H := Sample.collaborators) cfg 5%N
                   [x69; x68] [x69; x68; x07] Sample.empty_world) in
  let second := localVerifyPSS (H := Sample.collaborators) cfg 5%N
                  [x69; x68] [x69; x68; x07] w1 in
  cache_miss (H := Sample.collaborators) cfg w1 /\
  count_GetPublicKey (calls (snd second)) = 2 /\
  fst second = Ret None /\
  pubkeyCache (snd second) !! "test-key" = Some (RSAPublicKey Sample.key7).
Proof.
  intros cfg w1 second.
  destruct (failed_resolution_is_retried (H := Sample.collaborators) cfg 5%N
              [x69; x68] [x69; x68; x07] Sample.empty_world eq_refl
              (or_introl (ex_intro _ (Foreign "kms" "context deadline exceeded") eq_refl)))
    as [Hmiss Hnext].
  destruct (Hnext 5%N [x69; x68] [x69; x68; x07]) as [Hcount Hkey].
  destruct (Hkey [x01; x07; x03] (RSAPublicKey Sample.key7) 2 eq_refl eq_refl)
    as [Hres Hcached].
  split; [exact Hmiss|]. split; [exact Hcount|]. split; [exact Hres | exact Hcached].
Defined.

(** X10: when a local [Verify] call resolves a key (from the cache, or by
    a fetch that parses), repeating the call gives the same result, and
    the repeat only reads the cache: nothing is fetched, and the cache and
    the remote side stay as the first call left them. *)
Theorem repeated_local_verify_agrees `{Collaborators} (m : PSSSigningMethod)
    (signingString signature : string) (cfg : Config Net Ctx) (sig : bytes)
    (w : World) (key : PublicKey) :
  local_call m signature cfg sig ->
  key_resolves cfg w key ->
  let first := Verify m signingString signature (KeyConfig (Some cfg)) w in
  let second := Verify m signingString signature (KeyConfig (Some cfg)) (snd first) in
  fst second = fst first /\
  added_calls (snd first) (snd second) [CacheGet (kmsKeyID cfg)] /\
  pubkeyCache (snd second) = pubkeyCache (snd first) /\
  net (snd second) = net (snd first).
Proof.
  intros Hlocal Hres first second. unfold second, first.
  rewrite !(Verify_local_path _ _ _ _ _ _ Hlocal).
  assert (Hfirst : fst (localVerifyPSS cfg (hash (rsaSigningMethod m))
                          (digest_of m signingString) sig w)
                   = Ret (verdict key (hash (rsaSigningMethod m))
                            (digest_of m signingString) sig) /\
                   pubkeyCache (snd (localVerifyPSS cfg (hash (rsaSigningMethod m))
                                       (digest_of m signingString) sig w))
                     !! kmsKeyID cfg = Some key).
  { destruct Hres as [Hhit | (Hmiss & der & Hfetch & Hparse)].
    - rewrite (localVerifyPSS_hit _ _ _ _ _ _ Hhit). cbn. auto.
    - destruct (fetch cfg w) as [r n] eqn:Hf. cbn in Hfetch. subst r.
      rewrite (localVerifyPSS_fetched _ _ _ _ _ _ _ _ Hmiss Hf Hparse). cbn.
      split; [reflexivity | apply lookup_insert_eq]. }
  destruct Hfirst as [Hresult Hcached].
  rewrite (localVerifyPSS_hit _ _ _ _ _ _ Hcached), Hresult. cbn.
  repeat split.
Qed.

Lemma repeated_local_verify_agrees_witness :
  let first := Verify Sample.PS256 "hi" Sample.bad_signature
                 (KeyConfig (Some (Sample.config Sample.client_rsa false)))
                 Sample.empty_world in
  let second := Verify Sample.PS256 "hi" Sample.bad_signature
                  (KeyConfig (Some (Sample.config Sample.client_rsa false)))
                  (snd first) in
  fst second = fst first /\
  added_calls (snd first) (snd second) [CacheGet "test-key"] /\
  pubkeyCache (snd second) = pubkeyCache (snd first) /\
  net (snd second) = net (snd first).
Proof.
  apply (repeated_local_verify_agrees (H := Sample.collaborators)
           Sample.PS256 "hi" Sample.bad_signature
           (Sample.config Sample.client_rsa false) [x68; x69]
           Sample.empty_world (RSAPublicKey Sample.key7)).
  - repeat split.
  - right. split; [reflexivity|]. exists [x01; x07; x03]. split; reflexivity.
Defined.
